(** * webhook-to-card: the launch webhook relay of [app.py]

    A shallow embedding of the Flask application in [src/app.py] and the
    properties of its two views, [handle_webhook] and [status].

    - JSON values are an inductive type; Python dicts are finite maps
      ([gmap string _]), Python lists are lists.
    - A view runs in a small monad [M] that threads the log of outbound
      HTTP calls, reads the remote API as an oracle and may raise.
    - Module-level globals ([api_url], [headers]) are built once from the
      process environment, as the import of [app.py] does. *)

From stdpp Require Import gmap strings list fin_maps.
From Stdlib Require Import Floats.PrimFloat.

Set Warnings "-register-all".
Set Default Proof Using "Type".

Open Scope string_scope.
Open Scope Z_scope.
Open Scope list_scope.

(** ** JSON values, as [json.loads] / [request.get_json] produce them *)

Inductive json : Type :=
| JNull
| JBool (b : bool)
| JInt (z : Z)
| JFloat (f : float)
| JStr (s : string)
| JArr (l : list json)
| JObj (m : gmap string json).

(** A Python dict literal: entries are inserted left to right, a later
    entry for the same key replaces an earlier one. *)
Definition dict {V : Type} (entries : list (string * V)) : gmap string V :=
  foldl (λ m kv, <[kv.1 := kv.2]> m) ∅ entries.

(** Navigation inside a JSON document: a path of dict keys and list indices. *)
Inductive step : Type :=
| Key (k : string)
| Idx (i : nat).

Definition path : Type := list step.

Fixpoint json_at (p : path) (j : json) : option json :=
  match p with
  | [] => Some j
  | Key k :: p' =>
      match j with
      | JObj m => m !! k ≫= json_at p'
      | _ => None
      end
  | Idx i :: p' =>
      match j with
      | JArr l => l !! i ≫= json_at p'
      | _ => None
      end
  end.

(** Overwrite the value found at a path; a path that does not exist in the
    document leaves it unchanged. *)
Fixpoint json_set (p : path) (v : json) (j : json) : json :=
  match p with
  | [] => v
  | Key k :: p' =>
      match j with
      | JObj m => JObj (alter (json_set p' v) k m)
      | _ => j
      end
  | Idx i :: p' =>
      match j with
      | JArr l => JArr (alter (json_set p' v) i l)
      | _ => j
      end
  end.

(** ** Python exceptions that the views can raise *)

Inductive exn : Type :=
| KeyError (k : string)
| TypeError
| TemplateNotFound (name : string)
| HTTPError
| RequestException.

(** A Python expression either has a value or raises. *)
Global Instance raise_ret : MRet (sum exn) :=
  λ A x, inr x.

Global Instance raise_bind : MBind (sum exn) :=
  λ A B f r,
    match r with
    | inr a => f a
    | inl e => inl e
    end.

(** [o[k]] with a string key: a dict lookup raises [KeyError] on a missing
    key; every other JSON value (list, str, number, bool, None) raises
    [TypeError] for a string subscript. *)
Definition getitem (o : json) (k : string) : exn + json :=
  match o with
  | JObj m =>
      match m !! k with
      | Some v => inr v
      | None => inl (KeyError k)
      end
  | _ => inl TypeError
  end.

(** ** The [requests] library: one outbound call and its response

    The library is modelled at its call boundary. An [http_request] is one
    invocation of [requests.post] with its arguments; a [Response] is the
    object that invocation returns. When the server answers with a redirect
    that carries a [Location], the library follows it on its own and
    returns the response of the last hop: the requests of later hops are
    the library's, not invocations made by the view, and the status that
    line 128 tests is the one of the last hop. *)

Record http_request : Type := HttpRequest {
  req_method : string;
  url : string;
  req_headers : gmap string string;
  req_json : json
}.

Record Response : Type := MkResponse {
  status_code : Z;
  text : string
}.

(** [Response.raise_for_status] raises [HTTPError] for a 4xx client error
    ([400 <= status_code < 500]) and for a 5xx server error
    ([500 <= status_code < 600]), and returns otherwise. *)
Definition raise_for_status (r : Response) : exn + unit :=
  if bool_decide (400 ≤ status_code r < 500) then inl HTTPError
  else if bool_decide (500 ≤ status_code r < 600) then inl HTTPError
  else inr ().

(** [Response.ok]: [True] unless [raise_for_status] raises. *)
Definition ok (r : Response) : bool :=
  match raise_for_status r with
  | inl _ => false
  | inr _ => true
  end.

(** ** The monad of a view

    A computation reads the remote API, extends the log of outbound calls
    and returns a value or raises. The remote API is an oracle for the
    result of an invocation of [requests.post]: the response the library
    returns, which may depend on the calls made so far, or [None] when the
    invocation raises (the transport fails, or the library refuses the
    headers or the body before sending). *)

Definition api : Type := list http_request → http_request → option Response.

Definition M (A : Type) : Type :=
  api → list http_request → list http_request * (exn + A).

Global Instance M_ret : MRet M :=
  λ A x _ log, (log, inr x).

Global Instance M_bind : MBind M :=
  λ A B f c remote log,
    match c remote log with
    | (log', inr a) => f a remote log'
    | (log', inl e) => (log', inl e)
    end.

(** A pure Python expression that may raise. *)
Definition lift {A : Type} (r : exn + A) : M A :=
  λ _ log, (log, r).

(** [requests.post(url, headers=..., json=...)]: the invocation is logged
    with the body as a JSON value (its encoding on the wire is not
    modelled); it returns the response the library hands back, or raises. *)
Definition requests_post (u : string) (h : gmap string string) (j : json) : M Response :=
  λ remote log,
    let rq := HttpRequest "POST" u h j in
    (log ++ [rq],
     match remote log rq with
     | Some r => inr r
     | None => inl RequestException
     end).

(** The outbound calls a computation adds, and its outcome. *)
Definition calls {A : Type} (c : M A) (remote : api) (log : list http_request)
  : list http_request := (c remote log).1.

Definition outcome {A : Type} (c : M A) (remote : api) (log : list http_request)
  : exn + A := (c remote log).2.

(** ** Flask responses *)

Inductive body : Type :=
| Json (j : json)
| Html (s : string).

Record flask_response : Type := FlaskResponse {
  resp_body : body;
  resp_status : Z
}.

(** [jsonify(d)]: a response body that is the JSON document [d]. *)
Definition jsonify (d : gmap string json) : body := Json (JObj d).

(** ** Module globals of [app.py] (lines 13-17) *)

Definition api_url : string := "https://webexapis.com/v1/messages".

(** [os.getenv(name)]: [None] when the variable is not set. *)
Definition getenv (environ : gmap string string) (name : string) : option string :=
  environ !! name.

(** A Python [Optional[str]] as a JSON value. *)
Definition json_of_getenv (v : option string) : json :=
  match v with
  | Some s => JStr s
  | None => JNull
  end.

(** ["Bearer " + os.getenv("WEBEX_BOT_TOKEN")] raises [TypeError] when the
    token is not set: the module then fails to import. *)
Definition headers (environ : gmap string string) : exn + gmap string string :=
  match getenv environ "WEBEX_BOT_TOKEN" with
  | Some token =>
      inr (dict [("Content-Type", "application/json");
                 ("Authorization", "Bearer " +:+ token)])
  | None => inl TypeError
  end.

(** The imported module: the environment it runs in and the [headers]
    global computed at import time. *)
Record app : Type := App {
  app_environ : gmap string string;
  app_headers : gmap string string
}.

Definition load_app (environ : gmap string string) : exn + app :=
  match headers environ with
  | inr h => inr (App environ h)
  | inl e => inl e
  end.

(** ** The webhook view (lines 20-131) *)

(** The seven values read from [webhook["data"]] (lines 27-33). The code
    does not look at them: each is whatever JSON value the event carries. *)
Record launch_details : Type := LaunchDetails {
  rocket_name : json;
  payload_type : json;
  payload_description : json;
  launch_time : json;
  launch_site : json;
  mission_patch : json;
  video_stream : json
}.

(** Lines 24-33: seven subscripts, in this order; the first that fails
    raises. *)
Definition extract (webhook : json) : exn + launch_details :=
  data ← getitem webhook "data";
  rocket_name ← getitem data "rocket_name";
  payload_type ← getitem data "payload_type";
  payload_description ← getitem data "payload_description";
  launch_time ← getitem data "launch_time";
  launch_site ← getitem data "launch_site";
  mission_patch ← getitem data "mission_patch";
  video_stream ← getitem data "video_stream";
  mret (LaunchDetails rocket_name payload_type payload_description
          launch_time launch_site mission_patch video_stream).

(** Lines 36-111: the adaptive card. *)
Definition card_payload (d : launch_details) : json :=
  JObj (dict [
    ("$schema", JStr "http://adaptivecards.io/schemas/adaptive-card.json");
    ("type", JStr "AdaptiveCard");
    ("version", JStr "1.3");
    ("body", JArr [
      JObj (dict [
        ("type", JStr "TextBlock");
        ("text", JStr "Rocket Launch Successful!");
        ("weight", JStr "Bolder");
        ("size", JStr "Large");
        ("color", JStr "Accent");
        ("wrap", JBool true)]);
      JObj (dict [
        ("type", JStr "ColumnSet");
        ("columns", JArr [
          JObj (dict [
            ("type", JStr "Column");
            ("width", JStr "auto");
            ("items", JArr [
              JObj (dict [
                ("type", JStr "Image");
                ("url", mission_patch d);
                ("size", JStr "Small");
                ("style", JStr "Person")])])]);
          JObj (dict [
            ("type", JStr "Column");
            ("width", JStr "stretch");
            ("items", JArr [
              JObj (dict [
                ("type", JStr "TextBlock");
                ("text", JStr "Rocket Launch Details");
                ("weight", JStr "Bolder");
                ("wrap", JBool true)]);
              JObj (dict [
                ("type", JStr "FactSet");
                ("facts", JArr [
                  JObj (dict [("title", JStr "Rocket Name");
                              ("value", rocket_name d)]);
                  JObj (dict [("title", JStr "Payload Type");
                              ("value", payload_type d)]);
                  JObj (dict [("title", JStr "Payload Description");
                              ("value", payload_description d)]);
                  JObj (dict [("title", JStr "Launch Time");
                              ("value", launch_time d)]);
                  JObj (dict [("title", JStr "Launch Site");
                              ("value", launch_site d)])])])])])])])]);
    ("actions", JArr [
      JObj (dict [
        ("type", JStr "Action.OpenUrl");
        ("title", JStr "Watch the Launch");
        ("url", video_stream d)])])]).

(** Lines 114-123: the message sent to the Webex API. [os.getenv] is read
    when the view runs; an unset room id becomes JSON [null]. *)
Definition message_payload (a : app) (d : launch_details) : json :=
  JObj (dict [
    ("roomId", json_of_getenv (getenv (app_environ a) "WEBEX_ROOM_ID"));
    ("attachments", JArr [
      JObj (dict [
        ("contentType", JStr "application/vnd.microsoft.card.adaptive");
        ("content", card_payload d)])]);
    ("text", JStr "New Rocket Launch Detected")]).

(** [handle_webhook], applied to the value of [request.get_json()]. A body
    that is not JSON never reaches line 24 (Flask answers it) and is not an
    input of this function. *)
Definition handle_webhook (a : app) (webhook : json) : M flask_response :=
  d ← lift (extract webhook);
  response ← requests_post api_url (app_headers a) (message_payload a d);
  if ok response then
    mret (FlaskResponse (jsonify (dict [("success", JBool true)])) 200)
  else
    mret (FlaskResponse
            (jsonify (dict [("success", JBool false);
                            ("message", JStr (text response))]))
            (status_code response)).

(** ** The status view (lines 134-136) *)

(** A Jinja template, as far as [status] needs one: literal text and
    [{{ name }}] placeholders; a name missing from the context renders as
    the empty string. *)
Inductive piece : Type :=
| Text (s : string)
| Var (name : string).

Definition template : Type := list piece.

Definition render_piece (context : gmap string string) (p : piece) : string :=
  match p with
  | Text s => s
  | Var name => default "" (context !! name)
  end.

Definition render (t : template) (context : gmap string string) : string :=
  foldr (λ p rest, render_piece context p +:+ rest) "" t.

(** Modelled from the spec: [templates/status.html] is not among the
    sources. The spec calls the page a static informational body confirming
    that the process is running; the model is the page that shows the
    [message] it is rendered with. *)
Definition status_html : template := [Var "message"].

(** Modelled from the spec: the templates folder, holding [status.html]. *)
Definition templates : gmap string template :=
  dict [("status.html", status_html)].

(** [render_template(name, **context)]. *)
Definition render_template (name : string) (context : gmap string string)
  : exn + string :=
  match templates !! name with
  | Some t => inr (render t context)
  | None => inl (TemplateNotFound name)
  end.

(** A view that returns a string: Flask answers 200 with that body. *)
Definition status : M flask_response :=
  page ← lift (render_template "status.html"
                 (dict [("message", "The server is up and running!")]));
  mret (FlaskResponse (Html page) 200).

(** ** Routing *)

Inductive view : Type :=
| view_handle_webhook
| view_status.

(** The rules registered by the two [@app.route] decorators, with the
    methods that reach the view: those the source names ([GET] when none is
    named) and [HEAD], which Flask adds to every rule that accepts [GET].
    [OPTIONS] is answered by Flask without running a view. *)
Definition url_map : list (string * list string * view) :=
  [("/webhook", ["POST"], view_handle_webhook);
   ("/status", ["GET"; "HEAD"], view_status)].

Record request : Type := Request {
  method : string;
  req_path : string;
  get_json : json
}.

Definition rule_matches (r : request) (rule : string * list string * view) : bool :=
  bool_decide (rule.1.1 = req_path r) && bool_decide (method r ∈ rule.1.2).

(** The view a request is routed to; [None] when no rule of [url_map]
    matches and Flask answers on its own. *)
Definition match_request (r : request) : option view :=
  snd <$> find (rule_matches r) url_map.

Definition dispatch_request (a : app) (r : request) : option (M flask_response) :=
  match match_request r with
  | Some view_handle_webhook => Some (handle_webhook a (get_json r))
  | Some view_status => Some status
  | None => None
  end.

(** The server answers requests one after another. A view that raises ends
    its own request only; the log of outbound calls carries over. The
    outcome listed for a request is what its view returns (for [HEAD] the
    server sends it without the body). *)
Fixpoint serve (a : app) (remote : api) (rs : list request)
    (log : list http_request)
  : list http_request * list (option (exn + flask_response)) :=
  match rs with
  | [] => (log, [])
  | r :: rs' =>
      match dispatch_request a r with
      | Some c =>
          let step := c remote log in
          let rest := serve a remote rs' step.1 in
          (rest.1, Some step.2 :: rest.2)
      | None =>
          let rest := serve a remote rs' log in
          (rest.1, None :: rest.2)
      end
  end.

(** ** The vocabulary of the specification *)

(** The inbound launch event of the spec: seven strings. *)
Record launch_event : Type := LaunchEvent {
  ev_rocket_name : string;
  ev_payload_type : string;
  ev_payload_description : string;
  ev_launch_time : string;
  ev_launch_site : string;
  ev_mission_patch : string;
  ev_video_stream : string
}.

(** The seven required fields, in the order the event lists them. *)
Definition required_fields : list string :=
  ["rocket_name"; "payload_type"; "payload_description"; "launch_time";
   "launch_site"; "mission_patch"; "video_stream"].

Definition event_fields (ev : launch_event) : list (string * string) :=
  [("rocket_name", ev_rocket_name ev);
   ("payload_type", ev_payload_type ev);
   ("payload_description", ev_payload_description ev);
   ("launch_time", ev_launch_time ev);
   ("launch_site", ev_launch_site ev);
   ("mission_patch", ev_mission_patch ev);
   ("video_stream", ev_video_stream ev)].

Definition get_str (d : gmap string json) (k : string) : option string :=
  match d !! k with
  | Some (JStr s) => Some s
  | _ => None
  end.

(** A well-formed inbound body: an object whose [data] member is an object
    holding the seven fields as strings. Other members are allowed. *)
Definition event_of (webhook : json) : option launch_event :=
  match webhook with
  | JObj m =>
      match m !! "data" with
      | Some (JObj d) =>
          rn ← get_str d "rocket_name";
          pt ← get_str d "payload_type";
          pd ← get_str d "payload_description";
          lt ← get_str d "launch_time";
          ls ← get_str d "launch_site";
          mp ← get_str d "mission_patch";
          vs ← get_str d "video_stream";
          Some (LaunchEvent rn pt pd lt ls mp vs)
      | _ => None
      end
  | _ => None
  end.

(** The body has a [data] object with a member for each required field. *)
Definition has_required_fields (webhook : json) : bool :=
  match webhook with
  | JObj m =>
      match m !! "data" with
      | Some (JObj d) =>
          forallb (λ k, bool_decide (is_Some (d !! k))) required_fields
      | _ => false
      end
  | _ => false
  end.

(** What [extract] raises: a string subscript on a non-dict is a
    [TypeError], a missing member is the [KeyError] of its name. *)
Definition extraction_fault (e : exn) : Prop :=
  e = TypeError ∨ ∃ k, k ∈ "data" :: required_fields ∧ e = KeyError k.

Definition details_of (ev : launch_event) : launch_details :=
  LaunchDetails (JStr (ev_rocket_name ev)) (JStr (ev_payload_type ev))
    (JStr (ev_payload_description ev)) (JStr (ev_launch_time ev))
    (JStr (ev_launch_site ev)) (JStr (ev_mission_patch ev))
    (JStr (ev_video_stream ev)).

(** Fixed places of the outbound message and of the card. *)
Definition card_path : path := [Key "attachments"; Idx 0; Key "content"].

Definition header_path : path := [Key "body"; Idx 0].

Definition image_path : path :=
  [Key "body"; Idx 1; Key "columns"; Idx 0; Key "items"; Idx 0].

Definition factset_path : path :=
  [Key "body"; Idx 1; Key "columns"; Idx 1; Key "items"; Idx 1].

Definition fact_path (i : nat) : path := factset_path ++ [Key "facts"; Idx i].

Definition action_path : path := [Key "actions"; Idx 0].

(** The seven places of the card that hold a field of the event, each with
    the field it holds. *)
Definition slots : list (path * (launch_details → json)) :=
  [(fact_path 0 ++ [Key "value"], rocket_name);
   (fact_path 1 ++ [Key "value"], payload_type);
   (fact_path 2 ++ [Key "value"], payload_description);
   (fact_path 3 ++ [Key "value"], launch_time);
   (fact_path 4 ++ [Key "value"], launch_site);
   (image_path ++ [Key "url"], mission_patch);
   (action_path ++ [Key "url"], video_stream)].

(** Write the fields of [d] into the seven slots of a card. *)
Definition fill (d : launch_details) (card : json) : json :=
  foldr (λ slot c, json_set slot.1 (slot.2 d) c) card slots.

(** The titles and the values of a list of facts, in list order. *)
Definition fact_entries (facts : json) : option (list (json * json)) :=
  match facts with
  | JArr l =>
      mapM (λ f, t ← json_at [Key "title"] f;
                 v ← json_at [Key "value"] f;
                 Some (t, v)) l
  | _ => None
  end.

(** The one request [handle_webhook] sends for the details [d]. *)
Definition outbound (a : app) (d : launch_details) : http_request :=
  HttpRequest "POST" api_url (app_headers a) (message_payload a d).

Definition success_response : flask_response :=
  FlaskResponse (Json (JObj (dict [("success", JBool true)]))) 200.

Definition failure_response (r : Response) : flask_response :=
  FlaskResponse
    (Json (JObj (dict [("success", JBool false); ("message", JStr (text r))])))
    (status_code r).

(** The plain body that carries an event: [{"data": {...}}]. *)
Definition webhook_of (ev : launch_event) : json :=
  JObj (dict [("data", JObj (dict (prod_map id JStr <$> event_fields ev)))]).

(** ** Sample data: the end-to-end example of the spec *)

Definition falcon9 : launch_event :=
  LaunchEvent "Falcon 9" "Satellite" "Comms relay" "2024-01-01T00:00:00Z"
    "Cape Canaveral" "http://x/img.png" "http://x/video".

Definition sample_environ : gmap string string :=
  dict [("WEBEX_BOT_TOKEN", "token"); ("WEBEX_ROOM_ID", "room")].

Definition sample_app : app :=
  App sample_environ
    (dict [("Content-Type", "application/json");
           ("Authorization", "Bearer token")]).

(** The same event in a body that carries other members as well. *)
Definition falcon9_with_extras : json :=
  JObj (dict [
    ("id", JInt 42);
    ("data", JObj (dict (("flight_number", JInt 7)
                         :: (prod_map id JStr <$> event_fields falcon9))))]).

Definition starship : launch_event :=
  LaunchEvent "Starship" "Test article" "none" "2025-06-01T12:00:00Z"
    "Boca Chica" "not a url" "".

(** A remote API that answers every call with the same response. *)
Definition always (r : Response) : api := λ _ _, Some r.

(** ** Vocabulary for runs and faults *)

Definition is_object (v : json) : bool :=
  match v with
  | JObj _ => true
  | _ => false
  end.

(** A string, an integer, a boolean or null. *)
Definition scalar (v : json) : bool :=
  match v with
  | JNull | JBool _ | JInt _ | JStr _ => true
  | _ => false
  end.

Definition absent (d : gmap string json) (k : string) : bool :=
  match d !! k with
  | None => true
  | Some _ => false
  end.

(** The first required field, in the order of lines 27-33, that [d] lacks. *)
Definition first_missing (d : gmap string json) : option string :=
  find (absent d) required_fields.

(** The one kind of call the program makes: a POST to [api_url] with the
    headers built at import. *)
Definition relay_call (a : app) (rq : http_request) : Prop :=
  req_method rq = "POST" ∧ url rq = api_url ∧ req_headers rq = app_headers a.

(** One delivery of a webhook body. *)
Definition delivery (webhook : json) : request :=
  Request "POST" "/webhook" webhook.

(** A remote API that cannot be reached. *)
Definition unreachable : api := λ _ _, None.

(** A [data] object whose fields are not all strings, and a body around it. *)
Definition untyped_data : gmap string json :=
  dict [("rocket_name", JInt 9);
        ("payload_type", JNull);
        ("payload_description", JBool true);
        ("launch_time", JInt 1704067200);
        ("launch_site", JStr "");
        ("mission_patch", JNull);
        ("video_stream", JInt 0)].

Definition untyped_body : gmap string json :=
  dict [("data", JObj untyped_data)].

(** * Properties *)

(** Membership of a given element in a list written out in full. *)
Ltac in_list :=
  solve [repeat first [apply list_elem_of_here | apply list_elem_of_further]].

(** ** The classification of [Response.ok] *)

Lemma ok_false_iff (r : Response) :
  ok r = false ↔ 400 ≤ status_code r < 600.
Proof.
  unfold ok, raise_for_status.
  repeat case_bool_decide; split; intros; try done; lia.
Qed.

Lemma ok_true_iff (r : Response) :
  ok r = true ↔ status_code r < 400 ∨ 600 ≤ status_code r.
Proof.
  destruct (ok r) eqn:Hok.
  - split; [intros _|done].
    assert (¬ (400 ≤ status_code r < 600)) as Hn; [|lia].
    intros H%ok_false_iff. congruence.
  - apply ok_false_iff in Hok. split; [done|lia].
Qed.

(** ** Field extraction *)

Lemma getitem_inr (o : json) (k : string) (v : json) :
  getitem o k = inr v ↔ ∃ m, o = JObj m ∧ m !! k = Some v.
Proof.
  unfold getitem. split.
  - destruct o as [| | | | | |m]; try done.
    destruct (m !! k) eqn:Hk; [|done]. intros [= ->]. eauto.
  - intros (m & -> & ->). done.
Qed.

Lemma getitem_inl (o : json) (k : string) (e : exn) :
  getitem o k = inl e → e = TypeError ∨ e = KeyError k.
Proof.
  unfold getitem. destruct o as [| | | | | |m]; try (intros [= <-]; by left).
  destruct (m !! k); [done|]. intros [= <-]. by right.
Qed.

Lemma get_str_Some (d : gmap string json) (k s : string) :
  get_str d k = Some s → getitem (JObj d) k = inr (JStr s).
Proof.
  unfold get_str, getitem. destruct (d !! k) as [[]|]; try done.
  by intros [= ->].
Qed.

(** On a well-formed body the seven subscripts succeed and yield the
    strings of the event. *)
Lemma extract_event (webhook : json) (ev : launch_event) :
  event_of webhook = Some ev → extract webhook = inr (details_of ev).
Proof.
  unfold event_of. destruct webhook as [| | | | | |m]; try done.
  destruct (m !! "data") as [[| | | | | |d]|] eqn:Hdata; try done.
  intros Hev. unfold extract. cbn [getitem]. rewrite Hdata. cbn [mbind raise_bind].
  destruct (get_str d "rocket_name") as [rn|] eqn:H1; [|done].
  destruct (get_str d "payload_type") as [pt|] eqn:H2; [|done].
  destruct (get_str d "payload_description") as [pd|] eqn:H3; [|done].
  destruct (get_str d "launch_time") as [lt|] eqn:H4; [|done].
  destruct (get_str d "launch_site") as [ls|] eqn:H5; [|done].
  destruct (get_str d "mission_patch") as [mp|] eqn:H6; [|done].
  destruct (get_str d "video_stream") as [vs|] eqn:H7; [|done].
  cbn in Hev. injection Hev as <-.
  rewrite (get_str_Some _ _ _ H1), (get_str_Some _ _ _ H2),
    (get_str_Some _ _ _ H3), (get_str_Some _ _ _ H4),
    (get_str_Some _ _ _ H5), (get_str_Some _ _ _ H6),
    (get_str_Some _ _ _ H7).
  reflexivity.
Qed.

Lemma has_required_fields_true (webhook : json) :
  has_required_fields webhook = true ↔
  ∃ m d, webhook = JObj m ∧ m !! "data" = Some (JObj d) ∧
         ∀ k, k ∈ required_fields → is_Some (d !! k).
Proof.
  unfold has_required_fields. split.
  - destruct webhook as [| | | | | |m]; try done.
    destruct (m !! "data") as [[| | | | | |d]|] eqn:Hdata; try done.
    intros Hall. exists m, d. split_and!; [done..|].
    intros k Hk. rewrite forallb_forall in Hall.
    apply list_elem_of_In, Hall in Hk. by apply bool_decide_eq_true in Hk.
  - intros (m & d & -> & -> & Hall). apply forallb_forall.
    intros k Hk%list_elem_of_In. by apply bool_decide_eq_true, Hall.
Qed.

(** [extract] succeeds exactly on the bodies that have the seven members. *)
Lemma extract_inr (webhook : json) :
  has_required_fields webhook = true → ∃ d, extract webhook = inr d.
Proof.
  intros (m & d & -> & Hdata & Hall)%has_required_fields_true.
  unfold extract. cbn [getitem]. rewrite Hdata. cbn [mbind raise_bind getitem].
  assert (∀ k, k ∈ required_fields → ∃ v, d !! k = Some v) as Hget.
  { intros k Hk. by apply Hall. }
  unfold required_fields in Hget.
  repeat match goal with
  | |- context [d !! ?k] =>
      let v := fresh "v" in
      let Hv := fresh "Hv" in
      destruct (Hget k) as [v Hv]; [in_list|]; rewrite Hv; cbn [raise_bind]
  end.
  eauto.
Qed.

Lemma extract_inl (webhook : json) :
  has_required_fields webhook = false →
  ∃ e, extract webhook = inl e ∧ extraction_fault e.
Proof.
  intros Hreq. unfold extract, extraction_fault.
  destruct webhook as [| | | | | |m];
    try (exists TypeError; split; [done|by left]).
  cbn [getitem].
  destruct (m !! "data") as [data|] eqn:Hdata; cbn [mbind raise_bind]; last first.
  { exists (KeyError "data"). split; [done|]. right. eexists. split; [|done]. in_list. }
  destruct data as [| | | | | |d];
    try (exists TypeError; split; [done|by left]).
  cbn [getitem].
  repeat match goal with
  | |- context [d !! ?k] =>
      let H := fresh "Hk" in
      destruct (d !! k) eqn:H; cbn [raise_bind]; last first;
      [ exists (KeyError k); split; [done|];
        right; eexists; split; [|done]; unfold required_fields; in_list
      | ]
  end.
  exfalso. rewrite (proj2 (has_required_fields_true _)) in Hreq; [done|].
  exists m, d. split_and!; [done..|]. intros k Hin. unfold required_fields in Hin.
  repeat (apply elem_of_cons in Hin as [->|Hin]; [by eauto|]).
  by apply elem_of_nil in Hin.
Qed.

(** ** One run of [handle_webhook] *)

Section run.
Context (a : app) (remote : api) (log : list http_request).

Lemma handle_webhook_raises (webhook : json) (e : exn) :
  extract webhook = inl e →
  handle_webhook a webhook remote log = (log, inl e).
Proof.
  intros He. unfold handle_webhook, mbind, M_bind, lift. by rewrite He.
Qed.

Lemma handle_webhook_sends (webhook : json) (d : launch_details) :
  extract webhook = inr d →
  handle_webhook a webhook remote log =
    (log ++ [outbound a d],
     match remote log (outbound a d) with
     | Some r => inr (if ok r then success_response else failure_response r)
     | None => inl RequestException
     end).
Proof.
  intros He. unfold handle_webhook, mbind, M_bind, lift, requests_post.
  rewrite He. cbn. fold (outbound a d).
  destruct (remote log (outbound a d)) as [r|]; [|done].
  by destruct (ok r).
Qed.


(** What a well-formed body makes the view do: one call, then an answer
    that depends on the remote response only. *)
Lemma handle_webhook_event (webhook : json) (ev : launch_event) :
  event_of webhook = Some ev →
  handle_webhook a webhook remote log =
    (log ++ [outbound a (details_of ev)],
     match remote log (outbound a (details_of ev)) with
     | Some r => inr (if ok r then success_response else failure_response r)
     | None => inl RequestException
     end).
Proof. intros Hev. by apply handle_webhook_sends, extract_event. Qed.

End run.

Lemma event_of_webhook_of (ev : launch_event) :
  event_of (webhook_of ev) = Some ev.
Proof. by destruct ev. Qed.

Lemma card_in_message (a : app) (d : launch_details) :
  json_at card_path (message_payload a d) = Some (card_payload d).
Proof. reflexivity. Qed.

(** ** C1: the seven fields reach their slots verbatim *)

(** C1. For every inbound body whose [data] object holds the seven required
    string fields, the view sends one message whose card carries the seven
    strings unchanged: the five launch facts as the values of the five facts
    of the FactSet, [mission_patch] as the url of the Image and
    [video_stream] as the url of the Action.OpenUrl. *)
Theorem fields_verbatim_in_card (a : app) (webhook : json) (ev : launch_event)
    (remote : api) (log : list http_request) :
  event_of webhook = Some ev →
  ∃ rq card,
    calls (handle_webhook a webhook) remote log = log ++ [rq] ∧
    json_at card_path (req_json rq) = Some card ∧
    json_at (factset_path ++ [Key "type"]) card = Some (JStr "FactSet") ∧
    json_at (fact_path 0 ++ [Key "value"]) card = Some (JStr (ev_rocket_name ev)) ∧
    json_at (fact_path 1 ++ [Key "value"]) card = Some (JStr (ev_payload_type ev)) ∧
    json_at (fact_path 2 ++ [Key "value"]) card
      = Some (JStr (ev_payload_description ev)) ∧
    json_at (fact_path 3 ++ [Key "value"]) card = Some (JStr (ev_launch_time ev)) ∧
    json_at (fact_path 4 ++ [Key "value"]) card = Some (JStr (ev_launch_site ev)) ∧
    json_at (image_path ++ [Key "type"]) card = Some (JStr "Image") ∧
    json_at (image_path ++ [Key "url"]) card = Some (JStr (ev_mission_patch ev)) ∧
    json_at (action_path ++ [Key "type"]) card = Some (JStr "Action.OpenUrl") ∧
    json_at (action_path ++ [Key "url"]) card = Some (JStr (ev_video_stream ev)).
Proof.
  intros Hev. exists (outbound a (details_of ev)), (card_payload (details_of ev)).
  unfold calls. rewrite (handle_webhook_event _ _ _ _ _ Hev).
  split; [done|]. split; [apply card_in_message|].
  destruct ev. split_and!; reflexivity.
Qed.

Lemma fields_verbatim_in_card_witness :
  event_of (webhook_of falcon9) = Some falcon9 ∧
  ∃ rq card,
    calls (handle_webhook sample_app (webhook_of falcon9))
      (always (MkResponse 200 "")) [] = [] ++ [rq] ∧
    json_at card_path (req_json rq) = Some card ∧
    json_at (factset_path ++ [Key "type"]) card = Some (JStr "FactSet") ∧
    json_at (fact_path 0 ++ [Key "value"]) card = Some (JStr "Falcon 9") ∧
    json_at (fact_path 1 ++ [Key "value"]) card = Some (JStr "Satellite") ∧
    json_at (fact_path 2 ++ [Key "value"]) card = Some (JStr "Comms relay") ∧
    json_at (fact_path 3 ++ [Key "value"]) card
      = Some (JStr "2024-01-01T00:00:00Z") ∧
    json_at (fact_path 4 ++ [Key "value"]) card = Some (JStr "Cape Canaveral") ∧
    json_at (image_path ++ [Key "type"]) card = Some (JStr "Image") ∧
    json_at (image_path ++ [Key "url"]) card = Some (JStr "http://x/img.png") ∧
    json_at (action_path ++ [Key "type"]) card = Some (JStr "Action.OpenUrl") ∧
    json_at (action_path ++ [Key "url"]) card = Some (JStr "http://x/video").
Proof.
  split; [reflexivity|].
  apply (fields_verbatim_in_card sample_app (webhook_of falcon9) falcon9).
  reflexivity.
Defined.

(** ** C2, C3: the answer mirrors the outcome of the relay *)

(** C2, as the code has it. For every well-formed inbound body, when the
    response that [requests.post] hands back has a status from 400 to 599
    (a client or server error, the statuses for which [ok] is false), the
    view answers with that same status code and the JSON body that has
    exactly the two members [success: false] and
    [message: <the text of that response>]. *)
Theorem error_status_is_mirrored (a : app) (webhook : json) (ev : launch_event)
    (remote : api) (log : list http_request) (r : Response) :
  event_of webhook = Some ev →
  remote log (outbound a (details_of ev)) = Some r →
  400 ≤ status_code r < 600 →
  outcome (handle_webhook a webhook) remote log =
    inr (FlaskResponse
           (Json (JObj (dict [("success", JBool false);
                              ("message", JStr (text r))])))
           (status_code r)).
Proof.
  intros Hev Hr Hok%ok_false_iff. unfold outcome.
  rewrite (handle_webhook_event _ _ _ _ _ Hev). cbn. by rewrite Hr, Hok.
Qed.

Lemma error_status_is_mirrored_witness :
  event_of (webhook_of falcon9) = Some falcon9 ∧
  always (MkResponse 400 "bad request") []
    (outbound sample_app (details_of falcon9))
    = Some (MkResponse 400 "bad request") ∧
  400 ≤ status_code (MkResponse 400 "bad request") < 600 ∧
  outcome (handle_webhook sample_app (webhook_of falcon9))
    (always (MkResponse 400 "bad request")) [] =
    inr (FlaskResponse
           (Json (JObj (dict [("success", JBool false);
                              ("message", JStr "bad request")])))
           400).
Proof.
  split; [reflexivity|]. split; [reflexivity|]. split; [cbn; lia|].
  apply (error_status_is_mirrored sample_app (webhook_of falcon9) falcon9
           (always (MkResponse 400 "bad request")) []
           (MkResponse 400 "bad request"));
    [reflexivity|reflexivity|cbn; lia].
Defined.

(** A status that is not a success need not be mirrored. 304 is not a 2xx
    status, yet [raise_for_status] does not raise for it: the view answers
    [success: true] with status 200, not the failure body with status 304. *)
Lemma status_304_is_not_mirrored :
  event_of (webhook_of falcon9) = Some falcon9 ∧
  ¬ (200 ≤ status_code (MkResponse 304 "not modified") < 300) ∧
  outcome (handle_webhook sample_app (webhook_of falcon9))
      (always (MkResponse 304 "not modified")) []
    = inr (FlaskResponse (Json (JObj (dict [("success", JBool true)]))) 200) ∧
  outcome (handle_webhook sample_app (webhook_of falcon9))
      (always (MkResponse 304 "not modified")) []
    ≠ inr (FlaskResponse
             (Json (JObj (dict [("success", JBool false);
                                ("message", JStr "not modified")])))
             304).
Proof.
  split; [reflexivity|]. split; [cbn; lia|]. split; [reflexivity|].
  intros H%(inj inr). apply (f_equal resp_status) in H. discriminate.
Qed.

(** C3. For every well-formed inbound body, when the external API answers
    the call with a success status (its [ok] is true), the view answers
    with status 200 and the JSON body that has exactly the one member
    [success: true], whatever the text of the external response is. *)
Theorem success_is_acknowledged (a : app) (webhook : json) (ev : launch_event)
    (remote : api) (log : list http_request) (r : Response) :
  event_of webhook = Some ev →
  remote log (outbound a (details_of ev)) = Some r →
  ok r = true →
  outcome (handle_webhook a webhook) remote log =
    inr (FlaskResponse (Json (JObj (dict [("success", JBool true)]))) 200).
Proof.
  intros Hev Hr Hok. unfold outcome.
  rewrite (handle_webhook_event _ _ _ _ _ Hev). cbn. by rewrite Hr, Hok.
Qed.

Lemma success_is_acknowledged_witness :
  event_of (webhook_of falcon9) = Some falcon9 ∧
  always (MkResponse 200 "created") []
    (outbound sample_app (details_of falcon9))
    = Some (MkResponse 200 "created") ∧
  ok (MkResponse 200 "created") = true ∧
  outcome (handle_webhook sample_app (webhook_of falcon9))
    (always (MkResponse 200 "created")) [] =
    inr (FlaskResponse (Json (JObj (dict [("success", JBool true)]))) 200).
Proof.
  split_and!; [reflexivity..|].
  apply (success_is_acknowledged sample_app (webhook_of falcon9) falcon9
           (always (MkResponse 200 "created")) []
           (MkResponse 200 "created"));
    reflexivity.
Defined.

(** ** C4: a malformed body raises before any call is made *)

(** C4. For every inbound JSON body that lacks the [data] object or lacks
    one of the seven required fields, the view raises (a [TypeError], or the
    [KeyError] of the missing member) instead of returning a response, and
    the log of outbound calls is left as it was: no POST is sent. *)
Theorem malformed_body_raises (a : app) (webhook : json)
    (remote : api) (log : list http_request) :
  has_required_fields webhook = false →
  ∃ e, extraction_fault e ∧
       outcome (handle_webhook a webhook) remote log = inl e ∧
       calls (handle_webhook a webhook) remote log = log.
Proof.
  intros (e & He & Hfault)%extract_inl. exists e.
  unfold outcome, calls. by rewrite (handle_webhook_raises _ _ _ _ _ He).
Qed.

Lemma malformed_body_raises_witness :
  has_required_fields (JObj (dict [("data", JObj (dict [("rocket_name", JStr "Falcon 9")]))]))
    = false ∧
  ∃ e, extraction_fault e ∧
       outcome (handle_webhook sample_app
                  (JObj (dict [("data", JObj (dict [("rocket_name", JStr "Falcon 9")]))])))
         (always (MkResponse 200 "")) [] = inl e ∧
       calls (handle_webhook sample_app
                (JObj (dict [("data", JObj (dict [("rocket_name", JStr "Falcon 9")]))])))
         (always (MkResponse 200 "")) [] = [].
Proof.
  split; [reflexivity|].
  apply (malformed_body_raises sample_app
           (JObj (dict [("data", JObj (dict [("rocket_name", JStr "Falcon 9")]))]))).
  reflexivity.
Defined.

(** ** C5: the one outbound call *)

Lemma load_app_inr (environ : gmap string string) (a : app) :
  load_app environ = inr a →
  ∃ token, getenv environ "WEBEX_BOT_TOKEN" = Some token ∧
           a = App environ (dict [("Content-Type", "application/json");
                                  ("Authorization", "Bearer " +:+ token)]).
Proof.
  unfold load_app, headers.
  destruct (getenv environ "WEBEX_BOT_TOKEN") as [token|]; [|done].
  intros [= <-]. eauto.
Qed.

(** C5. For every well-formed inbound body, the view adds exactly one call
    to the log: a POST to [https://webexapis.com/v1/messages] whose headers
    are [Content-Type: application/json] and
    [Authorization: Bearer <configured token>], and whose JSON body has
    exactly the members [roomId] (the configured room id, [null] when none
    is configured), [attachments] (a one-element list holding the content
    type [application/vnd.microsoft.card.adaptive] and the card) and [text]
    ("New Rocket Launch Detected"). *)
Theorem one_outbound_post (environ : gmap string string) (a : app)
    (webhook : json) (ev : launch_event)
    (remote : api) (log : list http_request) :
  load_app environ = inr a →
  event_of webhook = Some ev →
  ∃ token,
    environ !! "WEBEX_BOT_TOKEN" = Some token ∧
    calls (handle_webhook a webhook) remote log =
      log ++ [
        {| req_method := "POST";
           url := "https://webexapis.com/v1/messages";
           req_headers :=
             dict [("Content-Type", "application/json");
                   ("Authorization", "Bearer " +:+ token)];
           req_json :=
             JObj (dict [
               ("roomId",
                match environ !! "WEBEX_ROOM_ID" with
                | Some room => JStr room
                | None => JNull
                end);
               ("attachments", JArr [
                  JObj (dict [
                    ("contentType",
                     JStr "application/vnd.microsoft.card.adaptive");
                    ("content", card_payload (details_of ev))])]);
               ("text", JStr "New Rocket Launch Detected")]) |} ].
Proof.
  intros (token & Htoken & ->)%load_app_inr Hev. exists token.
  split; [done|]. unfold calls.
  by rewrite (handle_webhook_event _ _ _ _ _ Hev).
Qed.

Lemma one_outbound_post_witness :
  load_app sample_environ = inr sample_app ∧
  event_of (webhook_of falcon9) = Some falcon9 ∧
  ∃ token,
    sample_environ !! "WEBEX_BOT_TOKEN" = Some token ∧
    calls (handle_webhook sample_app (webhook_of falcon9))
      (always (MkResponse 200 "")) [] =
      [] ++ [
        {| req_method := "POST";
           url := "https://webexapis.com/v1/messages";
           req_headers :=
             dict [("Content-Type", "application/json");
                   ("Authorization", "Bearer " +:+ token)];
           req_json :=
             JObj (dict [
               ("roomId",
                match sample_environ !! "WEBEX_ROOM_ID" with
                | Some room => JStr room
                | None => JNull
                end);
               ("attachments", JArr [
                  JObj (dict [
                    ("contentType",
                     JStr "application/vnd.microsoft.card.adaptive");
                    ("content", card_payload (details_of falcon9))])]);
               ("text", JStr "New Rocket Launch Detected")]) |} ].
Proof.
  split; [reflexivity|]. split; [reflexivity|].
  apply (one_outbound_post sample_environ sample_app (webhook_of falcon9)
           falcon9);
    reflexivity.
Defined.

(** ** C6: the payload is a function of the seven fields alone *)

(** The message built for any details is the message built for any other
    ones with the seven slots of its card rewritten. *)
Lemma message_payload_fill (a : app) (d d' : launch_details) :
  message_payload a d'
    = json_set card_path (fill d' (card_payload d)) (message_payload a d).
Proof. destruct d, d'. vm_compute. reflexivity. Qed.

(** C6. The message sent is a function of the seven fields alone, the same
    for every value of them.
    - Two well-formed bodies that carry the same seven strings make the
      view send the same calls, whatever else the bodies hold and whatever
      the remote API does.
    - Every one of the seven strings, whatever it is, sits unchanged in its
      slot of the card that is sent.
    - The call sent for any other well-formed body, with any other seven
      strings, is this call with those strings written into the seven
      slots of its card: nothing else in the call varies with the values,
      so there is no branch on them.
    - Every choice of seven strings is a well-formed event, and its body is
      relayed: none is rejected.
    - The answer of the view is the same for any two well-formed bodies
      whose calls get the same response. *)
Theorem payload_is_uniform_in_fields (a : app) (ev : launch_event)
    (w1 w2 : json) (remote1 remote2 : api) (log : list http_request) :
  event_of w1 = Some ev →
  event_of w2 = Some ev →
  calls (handle_webhook a w1) remote1 log
    = calls (handle_webhook a w2) remote2 log ∧
  (∃ rq card,
     calls (handle_webhook a w1) remote1 log = log ++ [rq] ∧
     json_at card_path (req_json rq) = Some card ∧
     json_at (fact_path 0 ++ [Key "value"]) card
       = Some (JStr (ev_rocket_name ev)) ∧
     json_at (fact_path 1 ++ [Key "value"]) card
       = Some (JStr (ev_payload_type ev)) ∧
     json_at (fact_path 2 ++ [Key "value"]) card
       = Some (JStr (ev_payload_description ev)) ∧
     json_at (fact_path 3 ++ [Key "value"]) card
       = Some (JStr (ev_launch_time ev)) ∧
     json_at (fact_path 4 ++ [Key "value"]) card
       = Some (JStr (ev_launch_site ev)) ∧
     json_at (image_path ++ [Key "url"]) card
       = Some (JStr (ev_mission_patch ev)) ∧
     json_at (action_path ++ [Key "url"]) card
       = Some (JStr (ev_video_stream ev)) ∧
     (∀ ev' w' remote',
        event_of w' = Some ev' →
        calls (handle_webhook a w') remote' log =
          log ++ [
            {| req_method := req_method rq;
               url := url rq;
               req_headers := req_headers rq;
               req_json :=
                 json_set card_path (fill (details_of ev') card)
                   (req_json rq) |} ])) ∧
  (∀ ev' remote',
     event_of (webhook_of ev') = Some ev' ∧
     calls (handle_webhook a (webhook_of ev')) remote' log
       = log ++ [outbound a (details_of ev')]) ∧
  (∀ ev' w' remote' r,
     event_of w' = Some ev' →
     remote1 log (outbound a (details_of ev)) = Some r →
     remote' log (outbound a (details_of ev')) = Some r →
     outcome (handle_webhook a w1) remote1 log
       = outcome (handle_webhook a w') remote' log).
Proof.
  intros H1 H2. unfold calls, outcome.
  rewrite (handle_webhook_event _ _ _ _ _ H1), (handle_webhook_event _ _ _ _ _ H2).
  split_and!.
  - done.
  - exists (outbound a (details_of ev)), (card_payload (details_of ev)).
    split; [done|]. split; [apply card_in_message|].
    split_and!; try (by destruct ev).
    intros ev' w' remote' H'. rewrite (handle_webhook_event _ _ _ _ _ H').
    unfold outbound. cbn [fst req_method url req_headers req_json].
    by rewrite <- message_payload_fill.
  - intros ev' remote'. split; [apply event_of_webhook_of|].
    by rewrite (handle_webhook_event _ _ _ _ _ (event_of_webhook_of ev')).
  - intros ev' w' remote' r H' Hr1 Hr2.
    rewrite (handle_webhook_event _ _ _ _ _ H'). cbn. by rewrite Hr1, Hr2.
Qed.

Lemma payload_is_uniform_in_fields_witness :
  event_of (webhook_of falcon9) = Some falcon9 ∧
  event_of falcon9_with_extras = Some falcon9 ∧
  calls (handle_webhook sample_app (webhook_of falcon9))
      (always (MkResponse 200 "")) []
    = calls (handle_webhook sample_app falcon9_with_extras)
        (always (MkResponse 500 "")) [] ∧
  (∃ rq card,
     calls (handle_webhook sample_app (webhook_of falcon9))
       (always (MkResponse 200 "")) [] = [] ++ [rq] ∧
     json_at card_path (req_json rq) = Some card ∧
     json_at (fact_path 0 ++ [Key "value"]) card = Some (JStr "Falcon 9") ∧
     json_at (fact_path 1 ++ [Key "value"]) card = Some (JStr "Satellite") ∧
     json_at (fact_path 2 ++ [Key "value"]) card = Some (JStr "Comms relay") ∧
     json_at (fact_path 3 ++ [Key "value"]) card
       = Some (JStr "2024-01-01T00:00:00Z") ∧
     json_at (fact_path 4 ++ [Key "value"]) card
       = Some (JStr "Cape Canaveral") ∧
     json_at (image_path ++ [Key "url"]) card
       = Some (JStr "http://x/img.png") ∧
     json_at (action_path ++ [Key "url"]) card
       = Some (JStr "http://x/video") ∧
     (∀ ev' w' remote',
        event_of w' = Some ev' →
        calls (handle_webhook sample_app w') remote' [] =
          [] ++ [
            {| req_method := req_method rq;
               url := url rq;
               req_headers := req_headers rq;
               req_json :=
                 json_set card_path (fill (details_of ev') card)
                   (req_json rq) |} ])) ∧
  (∀ ev' remote',
     event_of (webhook_of ev') = Some ev' ∧
     calls (handle_webhook sample_app (webhook_of ev')) remote' []
       = [] ++ [outbound sample_app (details_of ev')]) ∧
  (∀ ev' w' remote' r,
     event_of w' = Some ev' →
     always (MkResponse 200 "") [] (outbound sample_app (details_of falcon9))
       = Some r →
     remote' [] (outbound sample_app (details_of ev')) = Some r →
     outcome (handle_webhook sample_app (webhook_of falcon9))
         (always (MkResponse 200 "")) []
       = outcome (handle_webhook sample_app w') remote' []).
Proof.
  split; [reflexivity|]. split; [reflexivity|].
  apply (payload_is_uniform_in_fields sample_app falcon9
           (webhook_of falcon9) falcon9_with_extras);
    reflexivity.
Defined.

(** ** C7: the card is a copy of the fields into fixed slots *)

(** Any card of the view is any other one with the seven slots rewritten:
    outside the slots the card does not depend on the event. *)
Lemma card_payload_fill (d d' : launch_details) :
  card_payload d' = fill d' (card_payload d).
Proof. destruct d, d'. vm_compute. reflexivity. Qed.

(** C7. The card sent for a well-formed body copies the fields of the event
    into fixed slots and computes nothing from them: the facts of the
    FactSet are, in this order, Rocket Name, Payload Type, Payload
    Description, Launch Time and Launch Site, their values are the first
    five fields of the event in the order the event lists them, and the
    card built for any other seven values is this card with those values
    written into the seven slots, so that nothing outside the slots depends
    on the event. *)
Theorem card_copies_fields_in_order (a : app) (webhook : json)
    (ev : launch_event) (remote : api) (log : list http_request) :
  event_of webhook = Some ev →
  ∃ rq card facts entries,
    calls (handle_webhook a webhook) remote log = log ++ [rq] ∧
    json_at card_path (req_json rq) = Some card ∧
    json_at (factset_path ++ [Key "facts"]) card = Some facts ∧
    fact_entries facts = Some entries ∧
    entries.*1 = JStr <$> ["Rocket Name"; "Payload Type"; "Payload Description";
                           "Launch Time"; "Launch Site"] ∧
    entries.*2 = JStr <$> (take 5 (event_fields ev)).*2 ∧
    (take 5 (event_fields ev)).*1 = take 5 required_fields ∧
    (∀ slot, slot ∈ slots → json_at slot.1 card = Some (slot.2 (details_of ev))) ∧
    (∀ d', card_payload d' = fill d' card).
Proof.
  intros Hev.
  exists (outbound a (details_of ev)), (card_payload (details_of ev)).
  unfold calls. rewrite (handle_webhook_event _ _ _ _ _ Hev).
  destruct ev. do 2 eexists. split_and!; [reflexivity..| |].
  - intros slot Hslot. unfold slots in Hslot.
    repeat (apply elem_of_cons in Hslot as [->|Hslot]; [reflexivity|]).
    by apply elem_of_nil in Hslot.
  - intros d'. apply card_payload_fill.
Qed.

Lemma card_copies_fields_in_order_witness :
  event_of (webhook_of falcon9) = Some falcon9 ∧
  ∃ rq card facts entries,
    calls (handle_webhook sample_app (webhook_of falcon9))
      (always (MkResponse 200 "")) [] = [] ++ [rq] ∧
    json_at card_path (req_json rq) = Some card ∧
    json_at (factset_path ++ [Key "facts"]) card = Some facts ∧
    fact_entries facts = Some entries ∧
    entries.*1 = JStr <$> ["Rocket Name"; "Payload Type"; "Payload Description";
                           "Launch Time"; "Launch Site"] ∧
    entries.*2 = JStr <$> (take 5 (event_fields falcon9)).*2 ∧
    (take 5 (event_fields falcon9)).*1 = take 5 required_fields ∧
    (∀ slot, slot ∈ slots →
             json_at slot.1 card = Some (slot.2 (details_of falcon9))) ∧
    (∀ d', card_payload d' = fill d' card).
Proof.
  split; [reflexivity|].
  apply (card_copies_fields_in_order sample_app (webhook_of falcon9) falcon9).
  reflexivity.
Defined.

(** ** C10: the announcement does not depend on the event *)

(** C10. For every well-formed inbound body, the first element of the card
    body is a TextBlock whose text is "Rocket Launch Successful!", with
    weight Bolder and size Large, and the text of the message is
    "New Rocket Launch Detected": the same constants for every event. *)
Theorem announcement_is_constant (a : app) (webhook : json) (ev : launch_event)
    (remote : api) (log : list http_request) :
  event_of webhook = Some ev →
  ∃ rq card,
    calls (handle_webhook a webhook) remote log = log ++ [rq] ∧
    json_at card_path (req_json rq) = Some card ∧
    json_at (header_path ++ [Key "type"]) card = Some (JStr "TextBlock") ∧
    json_at (header_path ++ [Key "text"]) card
      = Some (JStr "Rocket Launch Successful!") ∧
    json_at (header_path ++ [Key "weight"]) card = Some (JStr "Bolder") ∧
    json_at (header_path ++ [Key "size"]) card = Some (JStr "Large") ∧
    json_at [Key "text"] (req_json rq) = Some (JStr "New Rocket Launch Detected").
Proof.
  intros Hev. exists (outbound a (details_of ev)), (card_payload (details_of ev)).
  unfold calls. rewrite (handle_webhook_event _ _ _ _ _ Hev).
  split_and!; reflexivity.
Qed.

Lemma announcement_is_constant_witness :
  event_of (webhook_of starship) = Some starship ∧
  ∃ rq card,
    calls (handle_webhook sample_app (webhook_of starship))
      (always (MkResponse 200 "")) [] = [] ++ [rq] ∧
    json_at card_path (req_json rq) = Some card ∧
    json_at (header_path ++ [Key "type"]) card = Some (JStr "TextBlock") ∧
    json_at (header_path ++ [Key "text"]) card
      = Some (JStr "Rocket Launch Successful!") ∧
    json_at (header_path ++ [Key "weight"]) card = Some (JStr "Bolder") ∧
    json_at (header_path ++ [Key "size"]) card = Some (JStr "Large") ∧
    json_at [Key "text"] (req_json rq) = Some (JStr "New Rocket Launch Detected").
Proof.
  split; [reflexivity|].
  apply (announcement_is_constant sample_app (webhook_of starship) starship).
  reflexivity.
Defined.

(** ** C8: the status page *)

(** Rendering a template that shows a variable bound to a non-empty string
    gives a non-empty page. *)
Lemma append_empty (s1 s2 : string) : s1 +:+ s2 = "" → s1 = "" ∧ s2 = "".
Proof. by destruct s1. Qed.

Lemma render_nonempty (t : template) (context : gmap string string)
    (name value : string) :
  Var name ∈ t → context !! name = Some value → value ≠ "" →
  render t context ≠ "".
Proof.
  intros Hin Hctx Hvalue. induction t as [|p t IH]; cbn.
  - by apply elem_of_nil in Hin.
  - apply elem_of_cons in Hin as [<-|Hin].
    + intros [Hp _]%append_empty. cbn in Hp. rewrite Hctx in Hp. done.
    + intros [_ Hrest]%append_empty. by apply IH.
Qed.


Lemma serve_app (a : app) (remote : api) (rs1 rs2 : list request)
    (log : list http_request) :
  serve a remote (rs1 ++ rs2) log =
    ((serve a remote rs2 (serve a remote rs1 log).1).1,
     (serve a remote rs1 log).2 ++ (serve a remote rs2 (serve a remote rs1 log).1).2).
Proof.
  revert log. induction rs1 as [|r rs1 IH]; intros log.
  - cbn. by destruct (serve a remote rs2 log).
  - rewrite <- app_comm_cons. cbn [serve].
    destruct (dispatch_request a r) as [c|]; cbn; by rewrite IH.
Qed.

(** C8. There is one non-empty page such that every GET request to
    [/status], whatever body it carries, after any sequence of earlier
    requests (webhook deliveries among them) and whatever the remote API
    does, is answered with status 200 and that page, without raising, and
    leaves the log of outbound calls exactly as the earlier requests left
    it: the view sends nothing. *)
Theorem status_is_fixed_and_silent :
  ∃ page : string,
    page ≠ "" ∧
    ∀ (a : app) (remote : api) (earlier : list request) (j : json)
      (log : list http_request),
      dispatch_request a (Request "GET" "/status" j) = Some status ∧
      calls status remote log = log ∧
      outcome status remote log = inr (FlaskResponse (Html page) 200) ∧
      serve a remote (earlier ++ [Request "GET" "/status" j]) log =
        ((serve a remote earlier log).1,
         (serve a remote earlier log).2
           ++ [Some (inr (FlaskResponse (Html page) 200))]).
Proof.
  exists (render status_html (dict [("message", "The server is up and running!")])).
  split.
  - apply (render_nonempty _ _ "message" "The server is up and running!");
      [in_list|reflexivity|done].
  - intros a remote earlier j log. split_and!; [reflexivity..|].
    rewrite serve_app. reflexivity.
Qed.

(** ** C9: which statuses count as success *)

Lemma success_not_failure (r : Response) :
  success_response ≠ failure_response r.
Proof.
  intros H.
  apply (f_equal (λ x, match resp_body x with
                       | Json j => json_at [Key "success"] j
                       | Html _ => None
                       end)) in H.
  vm_compute in H. discriminate.
Qed.

(** C9, as the code has it. The status that decides is the one of the
    response that [requests.post] hands back, which for a redirect that the
    library follows is the response of the last hop. For every well-formed
    inbound body and every response handed back, the view answers
    [success: true] with status 200 exactly when that status is outside
    400..599 (below 400, or 600 and above); in particular it does so for
    every status from 300 to 399 that is handed back (a redirect that was
    not followed) instead of mirroring it; and it takes the failure branch
    exactly for the statuses from 400 to 599, so only for statuses 400 and
    above. *)
Theorem success_iff_status_not_an_error (a : app) (webhook : json)
    (ev : launch_event) (remote : api) (log : list http_request)
    (r : Response) :
  event_of webhook = Some ev →
  remote log (outbound a (details_of ev)) = Some r →
  (outcome (handle_webhook a webhook) remote log
     = inr (FlaskResponse (Json (JObj (dict [("success", JBool true)]))) 200)
   ↔ status_code r < 400 ∨ 600 ≤ status_code r) ∧
  (300 ≤ status_code r ≤ 399 →
   outcome (handle_webhook a webhook) remote log
     = inr (FlaskResponse (Json (JObj (dict [("success", JBool true)]))) 200)) ∧
  (outcome (handle_webhook a webhook) remote log = inr (failure_response r)
   ↔ 400 ≤ status_code r < 600).
Proof.
  intros Hev Hr. unfold outcome.
  rewrite (handle_webhook_event _ _ _ _ _ Hev). cbn [snd]. rewrite Hr.
  fold success_response. rewrite <- ok_true_iff, <- ok_false_iff.
  assert (300 ≤ status_code r ≤ 399 → ok r = true) as H3xx.
  { intros ?. apply ok_true_iff. lia. }
  destruct (ok r); split_and!.
  - done.
  - done.
  - split; [|done]. intros H%(inj inr). by apply success_not_failure in H.
  - split; [|done]. intros H%(inj inr). symmetry in H.
    by apply success_not_failure in H.
  - intros H. by specialize (H3xx H).
  - done.
Qed.

Lemma success_iff_status_not_an_error_witness :
  event_of (webhook_of falcon9) = Some falcon9 ∧
  always (MkResponse 302 "") [] (outbound sample_app (details_of falcon9))
    = Some (MkResponse 302 "") ∧
  (outcome (handle_webhook sample_app (webhook_of falcon9))
       (always (MkResponse 302 "")) []
     = inr (FlaskResponse (Json (JObj (dict [("success", JBool true)]))) 200)
   ↔ status_code (MkResponse 302 "") < 400
     ∨ 600 ≤ status_code (MkResponse 302 "")) ∧
  (300 ≤ status_code (MkResponse 302 "") ≤ 399 →
   outcome (handle_webhook sample_app (webhook_of falcon9))
       (always (MkResponse 302 "")) []
     = inr (FlaskResponse (Json (JObj (dict [("success", JBool true)]))) 200)) ∧
  (outcome (handle_webhook sample_app (webhook_of falcon9))
       (always (MkResponse 302 "")) []
     = inr (failure_response (MkResponse 302 ""))
   ↔ 400 ≤ status_code (MkResponse 302 "") < 600).
Proof.
  split; [reflexivity|]. split; [reflexivity|].
  apply (success_iff_status_not_an_error sample_app (webhook_of falcon9)
           falcon9 (always (MkResponse 302 "")) [] (MkResponse 302 ""));
    reflexivity.
Defined.

(** Success is not the same as a status below 400. At status 600, which
    the HTTP client accepts like any three-digit status, [raise_for_status]
    does not raise, so the view answers [success: true] with status 200,
    and 600 is not below 400. *)
Lemma success_at_status_600 :
  event_of (webhook_of falcon9) = Some falcon9 ∧
  outcome (handle_webhook sample_app (webhook_of falcon9))
      (always (MkResponse 600 "")) []
    = inr (FlaskResponse (Json (JObj (dict [("success", JBool true)]))) 200) ∧
  ¬ (status_code (MkResponse 600 "") < 400).
Proof. split_and!; [reflexivity..|]. cbn. lia. Qed.

(** * Further properties of the code *)

(** ** Import of the module (lines 13-17) *)

(** The module imports exactly when [WEBEX_BOT_TOKEN] is set, whether or
    not [WEBEX_ROOM_ID] is: without the token the string concatenation of
    line 16 raises [TypeError]; with it the [headers] global holds the two
    headers, the second one made of "Bearer " and the token. *)
Theorem import_needs_token_only (environ : gmap string string) :
  (load_app environ = inl TypeError ↔ environ !! "WEBEX_BOT_TOKEN" = None) ∧
  (∀ e, load_app environ = inl e → e = TypeError) ∧
  (∀ a, load_app environ = inr a ↔
        ∃ token, environ !! "WEBEX_BOT_TOKEN" = Some token ∧
                 a = App environ
                       (dict [("Content-Type", "application/json");
                              ("Authorization", "Bearer " +:+ token)])).
Proof.
  unfold load_app, headers, getenv.
  destruct (environ !! "WEBEX_BOT_TOKEN") as [token|]; split_and!.
  - split; discriminate.
  - discriminate.
  - intros a. split.
    + intros [= <-]. eauto.
    + intros (token' & [= <-] & ->). done.
  - done.
  - by intros e [= <-].
  - intros a. split; [discriminate|]. by intros (token & ? & _).
Qed.

(** ** Faults of the extraction (lines 23-33) *)

(** A body that is not a JSON object, or whose [data] member is not one
    (a list, a string, a number, a boolean, null), makes the string
    subscript raise [TypeError]; no call is made. *)
Theorem non_object_is_type_error (a : app) (webhook : json)
    (remote : api) (log : list http_request) :
  is_object webhook = false ∨
    (∃ m data, webhook = JObj m ∧ m !! "data" = Some data ∧
               is_object data = false) →
  outcome (handle_webhook a webhook) remote log = inl TypeError ∧
  calls (handle_webhook a webhook) remote log = log.
Proof.
  intros Hshape.
  assert (extract webhook = inl TypeError) as He.
  { destruct Hshape as [Hw|(m & data & -> & Hdata & Hd)].
    - by destruct webhook.
    - unfold extract. cbn [getitem]. rewrite Hdata. cbn [mbind raise_bind].
      by destruct data. }
  unfold outcome, calls. by rewrite (handle_webhook_raises _ _ _ _ _ He).
Qed.

Lemma non_object_is_type_error_witness :
  (is_object (JArr [webhook_of falcon9]) = false ∨
     (∃ m data, JArr [webhook_of falcon9] = JObj m ∧ m !! "data" = Some data ∧
                is_object data = false)) ∧
  outcome (handle_webhook sample_app (JArr [webhook_of falcon9]))
    (always (MkResponse 200 "")) [] = inl TypeError ∧
  calls (handle_webhook sample_app (JArr [webhook_of falcon9]))
    (always (MkResponse 200 "")) [] = [].
Proof.
  split; [left; reflexivity|].
  apply (non_object_is_type_error sample_app (JArr [webhook_of falcon9])).
  left. reflexivity.
Defined.

(** A JSON object without a [data] member, the empty object included,
    raises [KeyError] for "data"; no call is made. *)
Theorem missing_data_is_key_error (a : app) (m : gmap string json)
    (remote : api) (log : list http_request) :
  m !! "data" = None →
  outcome (handle_webhook a (JObj m)) remote log = inl (KeyError "data") ∧
  calls (handle_webhook a (JObj m)) remote log = log.
Proof.
  intros Hdata.
  assert (extract (JObj m) = inl (KeyError "data")) as He.
  { unfold extract. cbn [getitem]. by rewrite Hdata. }
  unfold outcome, calls. by rewrite (handle_webhook_raises _ _ _ _ _ He).
Qed.

Lemma missing_data_is_key_error_witness :
  (∅ : gmap string json) !! "data" = None ∧
  outcome (handle_webhook sample_app (JObj ∅)) (always (MkResponse 200 "")) []
    = inl (KeyError "data") ∧
  calls (handle_webhook sample_app (JObj ∅)) (always (MkResponse 200 "")) [] = [].
Proof.
  split; [reflexivity|].
  apply (missing_data_is_key_error sample_app ∅). reflexivity.
Defined.

(** When the [data] object lacks required fields, the [KeyError] names the
    first missing one in the order rocket_name, payload_type,
    payload_description, launch_time, launch_site, mission_patch,
    video_stream, whatever the other members are; no call is made. *)
Theorem first_missing_field_is_named (a : app) (m d : gmap string json)
    (k : string) (remote : api) (log : list http_request) :
  m !! "data" = Some (JObj d) →
  first_missing d = Some k →
  outcome (handle_webhook a (JObj m)) remote log = inl (KeyError k) ∧
  calls (handle_webhook a (JObj m)) remote log = log.
Proof.
  intros Hdata Hfirst.
  assert (extract (JObj m) = inl (KeyError k)) as He.
  { unfold extract. cbn [getitem]. rewrite Hdata. cbn [mbind raise_bind getitem].
    unfold first_missing, required_fields in Hfirst. cbn [find] in Hfirst.
    unfold absent in Hfirst.
    repeat match type of Hfirst with
    | context [d !! ?f] =>
        destruct (d !! f) eqn:?; cbn [raise_bind];
        [|by injection Hfirst as <-]
    end.
    discriminate. }
  unfold outcome, calls. by rewrite (handle_webhook_raises _ _ _ _ _ He).
Qed.

Lemma first_missing_field_is_named_witness :
  dict [("data", JObj (dict [("rocket_name", JStr "Falcon 9");
                             ("launch_time", JStr "now")]))] !! "data"
    = Some (JObj (dict [("rocket_name", JStr "Falcon 9");
                        ("launch_time", JStr "now")])) ∧
  first_missing (dict [("rocket_name", JStr "Falcon 9");
                       ("launch_time", JStr "now")]) = Some "payload_type" ∧
  outcome (handle_webhook sample_app
             (JObj (dict [("data", JObj (dict [("rocket_name", JStr "Falcon 9");
                                               ("launch_time", JStr "now")]))])))
    (always (MkResponse 200 "")) [] = inl (KeyError "payload_type") ∧
  calls (handle_webhook sample_app
           (JObj (dict [("data", JObj (dict [("rocket_name", JStr "Falcon 9");
                                             ("launch_time", JStr "now")]))])))
    (always (MkResponse 200 "")) [] = [].
Proof.
  split; [reflexivity|]. split; [reflexivity|].
  apply (first_missing_field_is_named sample_app
           (dict [("data", JObj (dict [("rocket_name", JStr "Falcon 9");
                                       ("launch_time", JStr "now")]))])
           (dict [("rocket_name", JStr "Falcon 9");
                  ("launch_time", JStr "now")]));
    reflexivity.
Defined.

(** ** The relay and its answer (lines 126-131) *)

(** When the external API cannot be reached ([requests.post] raises), the
    view raises that exception after the one attempt and returns no
    response: the failure is not turned into an answer for the caller. *)
Theorem transport_failure_is_raised (a : app) (webhook : json)
    (ev : launch_event) (remote : api) (log : list http_request) :
  event_of webhook = Some ev →
  remote log (outbound a (details_of ev)) = None →
  outcome (handle_webhook a webhook) remote log = inl RequestException ∧
  calls (handle_webhook a webhook) remote log
    = log ++ [outbound a (details_of ev)].
Proof.
  intros Hev Hdown. unfold outcome, calls.
  rewrite (handle_webhook_event _ _ _ _ _ Hev). cbn. by rewrite Hdown.
Qed.

Lemma transport_failure_is_raised_witness :
  event_of (webhook_of falcon9) = Some falcon9 ∧
  unreachable [] (outbound sample_app (details_of falcon9)) = None ∧
  outcome (handle_webhook sample_app (webhook_of falcon9)) unreachable []
    = inl RequestException ∧
  calls (handle_webhook sample_app (webhook_of falcon9)) unreachable []
    = [] ++ [outbound sample_app (details_of falcon9)].
Proof.
  split; [reflexivity|]. split; [reflexivity|].
  apply (transport_failure_is_raised sample_app (webhook_of falcon9) falcon9);
    reflexivity.
Defined.

(** What the view can answer, for any body and any remote API. *)
Lemma handle_webhook_answers (a : app) (webhook : json) (remote : api)
    (log : list http_request) (resp : flask_response) :
  outcome (handle_webhook a webhook) remote log = inr resp →
  ∃ d r, extract webhook = inr d ∧
         remote log (outbound a d) = Some r ∧
         resp = (if ok r then success_response else failure_response r).
Proof.
  unfold outcome. destruct (extract webhook) as [e|d] eqn:He.
  - by rewrite (handle_webhook_raises _ _ _ _ _ He).
  - rewrite (handle_webhook_sends _ _ _ _ _ He). cbn.
    destruct (remote log (outbound a d)) as [r|] eqn:Hr; [|done].
    intros [= <-]. eauto.
Qed.

(** Every response the view returns is one of two kinds: status 200 with
    the body [success: true], or a status from 400 to 599 with a body whose
    [success] member is false. It never answers 200 with [success: false],
    and never answers with a 1xx or 3xx status. *)
Theorem answer_is_200_or_error_status (a : app) (webhook : json)
    (remote : api) (log : list http_request) (resp : flask_response) :
  outcome (handle_webhook a webhook) remote log = inr resp →
  resp = FlaskResponse (Json (JObj (dict [("success", JBool true)]))) 200 ∨
  (400 ≤ resp_status resp < 600 ∧
   ∃ message,
     resp_body resp = Json (JObj (dict [("success", JBool false);
                                        ("message", JStr message)]))).
Proof.
  intros (d & r & _ & _ & ->)%handle_webhook_answers.
  destruct (ok r) eqn:Hok; [by left|right].
  apply ok_false_iff in Hok. split; [done|]. by exists (text r).
Qed.

Lemma answer_is_200_or_error_status_witness :
  outcome (handle_webhook sample_app (webhook_of falcon9))
      (always (MkResponse 503 "busy")) []
    = inr (failure_response (MkResponse 503 "busy")) ∧
  (failure_response (MkResponse 503 "busy")
     = FlaskResponse (Json (JObj (dict [("success", JBool true)]))) 200 ∨
   (400 ≤ resp_status (failure_response (MkResponse 503 "busy")) < 600 ∧
    ∃ message,
      resp_body (failure_response (MkResponse 503 "busy"))
        = Json (JObj (dict [("success", JBool false);
                            ("message", JStr message)])))).
Proof.
  split; [reflexivity|].
  apply (answer_is_200_or_error_status sample_app (webhook_of falcon9)
           (always (MkResponse 503 "busy")) []).
  reflexivity.
Defined.

(** ** What is sent, over one request and over many *)

Lemma handle_webhook_log (a : app) (webhook : json) (remote : api)
    (log : list http_request) :
  ∃ sent, (handle_webhook a webhook remote log).1 = log ++ sent ∧
          (length sent ≤ 1)%nat ∧ Forall (relay_call a) sent.
Proof.
  destruct (extract webhook) as [e|d] eqn:He.
  - rewrite (handle_webhook_raises _ _ _ _ _ He). exists [].
    split_and!; [by rewrite app_nil_r|cbn; lia|constructor].
  - rewrite (handle_webhook_sends _ _ _ _ _ He). exists [outbound a d].
    split_and!; [done|cbn; lia|]. by repeat constructor.
Qed.

(** For any body and whatever [requests.post] returns or raises, one run of
    the view keeps the invocations already logged and invokes
    [requests.post] either not at all or exactly once, with the URL
    [https://webexapis.com/v1/messages] and the headers built at import:
    the view does not try again. Requests that the library sends on its own
    while it follows a redirect are not invocations of the view and are not
    counted here. *)
Theorem at_most_one_relay_call (a : app) (webhook : json) (remote : api)
    (log : list http_request) :
  calls (handle_webhook a webhook) remote log = log ∨
  ∃ rq, calls (handle_webhook a webhook) remote log = log ++ [rq] ∧
        req_method rq = "POST" ∧
        url rq = "https://webexapis.com/v1/messages" ∧
        req_headers rq = app_headers a.
Proof.
  unfold calls.
  destruct (handle_webhook_log a webhook remote log) as (sent & -> & Hlen & Hall).
  destruct sent as [|rq [|rq' sent]]; cbn in Hlen; [|..|lia].
  - left. by rewrite app_nil_r.
  - right. exists rq. split; [done|]. exact (Forall_inv Hall).
Qed.


(** [HEAD] on [/status] runs the status view, as [GET] does; any other
    method on that path runs no view. *)
Lemma status_route (r : request) :
  req_path r = "/status" →
  match_request r = Some view_status ↔ method r = "GET" ∨ method r = "HEAD".
Proof.
  intros Hpath. unfold match_request, url_map. cbn [find]. unfold rule_matches.
  cbn [fst snd]. rewrite Hpath.
  rewrite (bool_decide_eq_false_2 ("/webhook" = "/status")) by discriminate.
  rewrite (bool_decide_eq_true_2 ("/status" = "/status")) by done.
  cbn [andb]. case_bool_decide as Hm; cbn.
  - split; [|done]. intros _.
    apply elem_of_cons in Hm as [->|Hm]; [by left|].
    apply elem_of_cons in Hm as [->|Hm]; [by right|].
    by apply elem_of_nil in Hm.
  - split; [done|]. intros [Hg|Hh]; exfalso; apply Hm; rewrite ?Hg, ?Hh; in_list.
Qed.

Lemma serve_delivery (a : app) (remote : api) (webhook : json)
    (rs : list request) (log : list http_request) :
  serve a remote (delivery webhook :: rs) log =
    ((serve a remote rs (handle_webhook a webhook remote log).1).1,
     Some (handle_webhook a webhook remote log).2
       :: (serve a remote rs (handle_webhook a webhook remote log).1).2).
Proof. reflexivity. Qed.

(** Deliveries are not deduplicated: the same well-formed body delivered
    [n] times in a row sends the same call [n] times, whatever the remote
    API answers. *)
Theorem redelivery_sends_again (a : app) (remote : api) (webhook : json)
    (ev : launch_event) (n : nat) (log : list http_request) :
  event_of webhook = Some ev →
  (serve a remote (replicate n (delivery webhook)) log).1
    = log ++ replicate n (outbound a (details_of ev)).
Proof.
  intros Hev. revert log. induction n as [|n IH]; intros log.
  - cbn. by rewrite app_nil_r.
  - cbn [replicate]. rewrite serve_delivery. cbn [fst].
    rewrite (handle_webhook_event _ _ _ _ _ Hev). cbn [fst].
    by rewrite IH, <- (assoc_L (++)).
Qed.

Lemma redelivery_sends_again_witness :
  event_of (webhook_of falcon9) = Some falcon9 ∧
  (serve sample_app (always (MkResponse 200 ""))
     (replicate 3 (delivery (webhook_of falcon9))) []).1
    = [] ++ replicate 3 (outbound sample_app (details_of falcon9)).
Proof.
  split; [reflexivity|].
  apply (redelivery_sends_again sample_app (always (MkResponse 200 ""))
           (webhook_of falcon9) falcon9 3 []).
  reflexivity.
Defined.

(** ** Field values that are not strings (lines 27-33, 58, 79-95, 108) *)

(** The types of the seven fields are not checked: when the [data] object
    holds them as strings, integers, booleans or null, in any mix, the view
    still sends its one call, and each value sits unchanged in its slot of
    the card. *)
Theorem field_types_are_not_checked (a : app) (m d : gmap string json)
    (v1 v2 v3 v4 v5 v6 v7 : json) (remote : api) (log : list http_request) :
  m !! "data" = Some (JObj d) →
  d !! "rocket_name" = Some v1 →
  d !! "payload_type" = Some v2 →
  d !! "payload_description" = Some v3 →
  d !! "launch_time" = Some v4 →
  d !! "launch_site" = Some v5 →
  d !! "mission_patch" = Some v6 →
  d !! "video_stream" = Some v7 →
  forallb scalar [v1; v2; v3; v4; v5; v6; v7] = true →
  ∃ rq card,
    calls (handle_webhook a (JObj m)) remote log = log ++ [rq] ∧
    json_at card_path (req_json rq) = Some card ∧
    json_at (fact_path 0 ++ [Key "value"]) card = Some v1 ∧
    json_at (fact_path 1 ++ [Key "value"]) card = Some v2 ∧
    json_at (fact_path 2 ++ [Key "value"]) card = Some v3 ∧
    json_at (fact_path 3 ++ [Key "value"]) card = Some v4 ∧
    json_at (fact_path 4 ++ [Key "value"]) card = Some v5 ∧
    json_at (image_path ++ [Key "url"]) card = Some v6 ∧
    json_at (action_path ++ [Key "url"]) card = Some v7.
Proof.
  intros Hdata H1 H2 H3 H4 H5 H6 H7 _.
  assert (extract (JObj m) = inr (LaunchDetails v1 v2 v3 v4 v5 v6 v7)) as He.
  { unfold extract. cbn [getitem]. rewrite Hdata. cbn [mbind raise_bind getitem].
    by rewrite H1, H2, H3, H4, H5, H6, H7. }
  exists (outbound a (LaunchDetails v1 v2 v3 v4 v5 v6 v7)),
    (card_payload (LaunchDetails v1 v2 v3 v4 v5 v6 v7)).
  unfold calls. rewrite (handle_webhook_sends _ _ _ _ _ He).
  split_and!; reflexivity.
Qed.

Lemma field_types_are_not_checked_witness :
  untyped_body !! "data" = Some (JObj untyped_data) ∧
  untyped_data !! "rocket_name" = Some (JInt 9) ∧
  untyped_data !! "payload_type" = Some JNull ∧
  untyped_data !! "payload_description" = Some (JBool true) ∧
  untyped_data !! "launch_time" = Some (JInt 1704067200) ∧
  untyped_data !! "launch_site" = Some (JStr "") ∧
  untyped_data !! "mission_patch" = Some JNull ∧
  untyped_data !! "video_stream" = Some (JInt 0) ∧
  forallb scalar [JInt 9; JNull; JBool true; JInt 1704067200; JStr ""; JNull;
                  JInt 0] = true ∧
  ∃ rq card,
    calls (handle_webhook sample_app (JObj untyped_body))
      (always (MkResponse 200 "")) [] = [] ++ [rq] ∧
    json_at card_path (req_json rq) = Some card ∧
    json_at (fact_path 0 ++ [Key "value"]) card = Some (JInt 9) ∧
    json_at (fact_path 1 ++ [Key "value"]) card = Some JNull ∧
    json_at (fact_path 2 ++ [Key "value"]) card = Some (JBool true) ∧
    json_at (fact_path 3 ++ [Key "value"]) card = Some (JInt 1704067200) ∧
    json_at (fact_path 4 ++ [Key "value"]) card = Some (JStr "") ∧
    json_at (image_path ++ [Key "url"]) card = Some JNull ∧
    json_at (action_path ++ [Key "url"]) card = Some (JInt 0).
Proof.
  split_and!; [reflexivity..|].
  apply (field_types_are_not_checked sample_app untyped_body untyped_data);
    reflexivity.
Defined.
